(** * Luminary: the Discord HTTP client of [DiscordClient.py]

    A shallow embedding of the request/response mapping layer.  Every
    operation of the client performs exactly one HTTP round trip
    ([async with session.<verb>(url, ...) as response: ...]).  An operation is
    therefore modelled as a [call]: the request it issues together with the
    code that runs on the response.  Python exceptions are the [Raise] branch
    of a small error monad.  Transport errors raised by aiohttp before a
    response exists are outside the model: a [call] is resumed with a
    response. *)

From Stdlib Require Import Ascii.
From stdpp Require Import base strings pretty list gmap.

Local Open Scope string_scope.
Local Open Scope Z_scope.

(** ** Python values *)

#[local] Set Warnings "-register-all".

(** The objects [json.loads] can produce, which is what
    [await response.json()] returns.  A float is kept as its binary64 bit
    pattern: the client never inspects a number, it only stores it.  A JSON
    object is a [dict]; the client only ever subscripts dicts by key, and
    iterating one (see [iter]) has the same outcome in every key order, so the
    insertion order is not kept. *)
Inductive pyval :=
| VNone
| VBool (b : bool)
| VInt (n : Z)
| VFloat (bits : Z)
| VStr (s : string)
| VList (l : list pyval)
| VDict (d : gmap string pyval).

(** The values interpolated into URLs and form bodies by the callers:
    identifiers, text and the [limit] bound.  A float is kept as its [repr],
    the shortest text that reads back as the same float, which is also the
    text an f-string field expands it to. *)
Inductive fmtval :=
| FNone
| FBool (b : bool)
| FInt (n : Z)
| FFloat (repr : string)
| FStr (s : string).

(** [format v] is the text an f-string field [{v}] expands to. *)
Definition format (v : fmtval) : string :=
  match v with
  | FNone => "None"
  | FBool true => "True"
  | FBool false => "False"
  | FInt n => pretty n
  | FFloat repr => repr
  | FStr s => s
  end.

(** ** Exceptions and results *)

Inductive exn :=
| ValueError (msg : string)
| KeyError (key : string)
| TypeError
| JSONDecodeError
| ContentTypeError.

(** The name of the exception class, which is what an [except] clause of the
    caller dispatches on. *)
Definition exn_class (e : exn) : string :=
  match e with
  | ValueError _ => "ValueError"
  | KeyError _ => "KeyError"
  | TypeError => "TypeError"
  | JSONDecodeError => "JSONDecodeError"
  | ContentTypeError => "ContentTypeError"
  end.

Inductive result (A : Type) :=
| Return (a : A)
| Raise (e : exn).

Arguments Return {A} a.
Arguments Raise {A} e.

#[global] Instance result_ret : MRet result := @Return.
#[global] Instance result_bind : MBind result := fun A B f m =>
  match m with
  | Return a => f a
  | Raise e => Raise e
  end.
#[global] Instance result_fmap : FMap result := fun A B f m =>
  match m with
  | Return a => Return (f a)
  | Raise e => Raise e
  end.

Definition is_Return {A} (r : result A) : bool :=
  match r with Return _ => true | Raise _ => false end.

Definition is_Raise {A} (r : result A) : bool :=
  match r with Return _ => false | Raise _ => true end.

(** [v[key]] with a string key. *)
Definition subscript (v : pyval) (key : string) : result pyval :=
  match v with
  | VDict d =>
      match d !! key with
      | Some x => Return x
      | None => Raise (KeyError key)
      end
  | _ => Raise TypeError
  end.

(** The elements [for x in v] ranges over: the items of a list, the keys of
    a dict, the one-character strings of a str. *)
Definition iter (v : pyval) : result (list pyval) :=
  match v with
  | VList l => Return l
  | VDict d => Return (VStr <$> (map_to_list d).*1)
  | VStr s => Return ((fun c => VStr (String c EmptyString)) <$> String.list_ascii_of_string s)
  | _ => Raise TypeError
  end.

(** A list comprehension [[f x for x in xs]]: elements are built from left
    to right and the first exception abandons the whole list. *)
Fixpoint comprehension {A B} (f : A -> result B) (xs : list A) : result (list B) :=
  match xs with
  | [] => Return []
  | x :: xs' =>
      y ← f x;
      ys ← comprehension f xs';
      Return (y :: ys)
  end.

(** ** HTTP *)

Inductive http_method := GET | POST | PUT | DELETE.

Record request := Request {
  method : http_method;
  url : string;
  data : option (list (string * fmtval))
}.

(** What the client observes of a response: its status code and what
    [await response.json()] does, which is to return the decoded body or to
    raise when the body does not decode. *)
Record response := Response {
  status : Z;
  json : result pyval
}.

(** One round trip: the request issued and the body of the [async with]
    block, run on the response. *)
Record call (A : Type) := Call {
  call_request : request;
  resume : response -> A
}.

Arguments Call {A} _ _.
Arguments call_request {A} _.
Arguments resume {A} _ _.

(** The session answers the request; the operation continues with the
    response. *)
Definition run {A} (session : request -> response) (c : call A) : A :=
  resume c (session (call_request c)).

(** ** Records *)

Module Message.
Record t := mk { id : pyval; content : pyval; author : pyval }.
End Message.

Module User.
Record t := mk {
  id : pyval; username : pyval; discriminator : pyval; avatar : pyval
}.
End User.

Module Channel.
Record t := mk { id : pyval; name : pyval; channel_type : pyval }.
End Channel.

(** [Message(msg["id"], msg["content"], msg["author"]["username"])]:
    arguments are evaluated from left to right before the constructor runs. *)
Definition Message_of (msg : pyval) : result Message.t :=
  id ← subscript msg "id";
  content ← subscript msg "content";
  author ← subscript msg "author";
  username ← subscript author "username";
  Return (Message.mk id content username).

(** [User(d["id"], d["username"], d["discriminator"], d["avatar"])]. *)
Definition User_of (d : pyval) : result User.t :=
  id ← subscript d "id";
  username ← subscript d "username";
  discriminator ← subscript d "discriminator";
  avatar ← subscript d "avatar";
  Return (User.mk id username discriminator avatar).

(** [Channel(data["id"], data["name"], data["type"])]. *)
Definition Channel_of (data : pyval) : result Channel.t :=
  id ← subscript data "id";
  name ← subscript data "name";
  type ← subscript data "type";
  Return (Channel.mk id name type).

(** ** The client *)

(** [session] is the aiohttp handle the requests go through; here it is the
    environment that answers a [call].  [gateway_url] is an attribute that
    [__init__] does not create: it exists only once [connect] has set it. *)
Record DiscordClient := {
  api_url : string;
  gateway_url : option pyval
}.

Definition __init__ (api_url : string) : DiscordClient :=
  {| api_url := api_url; gateway_url := None |}.

Definition set_gateway_url (self : DiscordClient) (v : pyval) : DiscordClient :=
  {| api_url := api_url self; gateway_url := Some v |}.

(** Shorthands for [session.get(url)], [session.post(url, data=...)], ... *)
Definition session_get (url : string) : request := Request GET url None.
Definition session_post (url : string) (data : list (string * fmtval)) : request :=
  Request POST url (Some data).
Definition session_put (url : string) (data : list (string * fmtval)) : request :=
  Request PUT url (Some data).
Definition session_delete (url : string) : request := Request DELETE url None.

(** [raise ValueError(f"<text>: {response.status}")]. *)
Definition failed {A} (text : string) (response : response) : result A :=
  Raise (ValueError (text +:+ ": " +:+ pretty (status response))).

(** [connect] returns [None]; it is the one operation that assigns to an
    attribute of the client, so it also yields the client after the call. *)
Definition connect (self : DiscordClient) : call (result unit * DiscordClient) :=
  Call (session_get (api_url self +:+ "/gateway"))
    (fun response =>
       if status response =? 200 then
         match data ← json response; subscript data "url" with
         | Return gateway => (Return (), set_gateway_url self gateway)
         | Raise e => (Raise e, self)
         end
       else (failed "Failed to connect to Discord" response, self)).

Definition send_message (self : DiscordClient) (channel_id message_content : fmtval)
  : call (result bool) :=
  Call (session_post
          (api_url self +:+ "/channels/" +:+ format channel_id +:+ "/messages")
          [("content", message_content)])
    (fun response =>
       if status response =? 200 then Return true
       else failed "Failed to send message" response).

Definition receive_message (self : DiscordClient) (channel_id : fmtval)
  : call (result Message.t) :=
  Call (session_get
          (api_url self +:+ "/channels/" +:+ format channel_id +:+ "/messages"))
    (fun response =>
       if status response =? 200 then
         data ← json response;
         Message_of data
       else failed "Failed to receive message" response).

Definition edit_message (self : DiscordClient)
    (channel_id message_id message_content : fmtval) : call (result bool) :=
  Call (session_put
          (api_url self +:+ "/channels/" +:+ format channel_id
             +:+ "/messages/" +:+ format message_id)
          [("content", message_content)])
    (fun response =>
       if status response =? 200 then Return true
       else failed "Failed to edit message" response).

Definition delete_message (self : DiscordClient) (channel_id message_id : fmtval)
  : call (result bool) :=
  Call (session_delete
          (api_url self +:+ "/channels/" +:+ format channel_id
             +:+ "/messages/" +:+ format message_id))
    (fun response =>
       if status response =? 204 then Return true
       else failed "Failed to delete message" response).

Definition get_user_info (self : DiscordClient) (user_id : fmtval)
  : call (result User.t) :=
  Call (session_get (api_url self +:+ "/users/" +:+ format user_id))
    (fun response =>
       if status response =? 200 then
         data ← json response;
         User_of data
       else failed "Failed to get user info" response).

Definition get_channel_info (self : DiscordClient) (channel_id : fmtval)
  : call (result Channel.t) :=
  Call (session_get (api_url self +:+ "/channels/" +:+ format channel_id))
    (fun response =>
       if status response =? 200 then
         data ← json response;
         Channel_of data
       else failed "Failed to get channel info" response).

(** ** Free functions on a client *)

(** A parameter declared [limit=10]: [None] is the call that omits it. *)
Definition limit_or_default (limit : option fmtval) : fmtval :=
  default (FInt 10) limit.

Definition fetch_channel_messages (client : DiscordClient) (channel_id : fmtval)
    (limit : option fmtval) : call (result (list Message.t)) :=
  let limit := limit_or_default limit in
  Call (session_get
          (api_url client +:+ "/channels/" +:+ format channel_id
             +:+ "/messages?limit=" +:+ format limit))
    (fun response =>
       if status response =? 200 then
         data ← json response;
         msgs ← iter data;
         comprehension Message_of msgs
       else failed "Failed to fetch channel messages" response).

Definition get_user_messages (client : DiscordClient) (user_id : fmtval)
    (limit : option fmtval) : call (result (list Message.t)) :=
  let limit := limit_or_default limit in
  Call (session_get
          (api_url client +:+ "/users/" +:+ format user_id
             +:+ "/messages?limit=" +:+ format limit))
    (fun response =>
       if status response =? 200 then
         data ← json response;
         msgs ← iter data;
         comprehension Message_of msgs
       else failed "Failed to fetch user messages" response).

Definition get_user_friends (client : DiscordClient) (user_id : fmtval)
  : call (result (list User.t)) :=
  Call (session_get (api_url client +:+ "/users/" +:+ format user_id +:+ "/friends"))
    (fun response =>
       if status response =? 200 then
         data ← json response;
         friends ← iter data;
         comprehension User_of friends
       else failed "Failed to fetch user friends" response).

Definition create_channel (client : DiscordClient) (name channel_type : fmtval)
  : call (result Channel.t) :=
  Call (session_post (api_url client +:+ "/channels")
          [("name", name); ("type", channel_type)])
    (fun response =>
       if status response =? 201 then
         data ← json response;
         Channel_of data
       else failed "Failed to create channel" response).

(** ** All operations at once *)

(** A call of one of the eleven operations, with its arguments. *)
Inductive operation :=
| op_connect
| op_send_message (channel_id message_content : fmtval)
| op_receive_message (channel_id : fmtval)
| op_edit_message (channel_id message_id message_content : fmtval)
| op_delete_message (channel_id message_id : fmtval)
| op_get_user_info (user_id : fmtval)
| op_get_channel_info (channel_id : fmtval)
| op_fetch_channel_messages (channel_id : fmtval) (limit : option fmtval)
| op_get_user_messages (user_id : fmtval) (limit : option fmtval)
| op_get_user_friends (user_id : fmtval)
| op_create_channel (name channel_type : fmtval).

(** What a call can return to its caller. *)
Inductive retval :=
| RNone
| RBool (b : bool)
| RMessage (m : Message.t)
| RUser (u : User.t)
| RChannel (c : Channel.t)
| RMessages (ms : list Message.t)
| RUsers (us : list User.t).

Definition call_map {A B} (f : A -> B) (c : call A) : call B :=
  Call (call_request c) (fun response => f (resume c response)).

(** An operation that leaves the client as it is. *)
Definition pure_call {A} (wrap : A -> retval) (client : DiscordClient)
    (c : call (result A)) : call (result retval * DiscordClient) :=
  call_map (fun r => (wrap <$> r, client)) c.

Definition perform (client : DiscordClient) (op : operation)
  : call (result retval * DiscordClient) :=
  match op with
  | op_connect =>
      call_map (fun '(r, client') => ((fun _ => RNone) <$> r, client')) (connect client)
  | op_send_message cid text => pure_call RBool client (send_message client cid text)
  | op_receive_message cid => pure_call RMessage client (receive_message client cid)
  | op_edit_message cid mid text =>
      pure_call RBool client (edit_message client cid mid text)
  | op_delete_message cid mid => pure_call RBool client (delete_message client cid mid)
  | op_get_user_info uid => pure_call RUser client (get_user_info client uid)
  | op_get_channel_info cid => pure_call RChannel client (get_channel_info client cid)
  | op_fetch_channel_messages cid limit =>
      pure_call RMessages client (fetch_channel_messages client cid limit)
  | op_get_user_messages uid limit =>
      pure_call RMessages client (get_user_messages client uid limit)
  | op_get_user_friends uid => pure_call RUsers client (get_user_friends client uid)
  | op_create_channel name type => pure_call RChannel client (create_channel client name type)
  end.

(** The outcome of an operation on a given response, and the client after
    it. *)
Definition outcome (client : DiscordClient) (op : operation) (r : response)
  : result retval :=
  fst (resume (perform client op) r).

Definition client_after (client : DiscordClient) (op : operation) (r : response)
  : DiscordClient :=
  snd (resume (perform client op) r).

(** ** The documented interface *)

(** The name of the operation, as the interface table of the specification
    lists it. *)
Definition operation_name (op : operation) : string :=
  match op with
  | op_connect => "connect"
  | op_send_message _ _ => "send_message"
  | op_receive_message _ => "receive_message"
  | op_edit_message _ _ _ => "edit_message"
  | op_delete_message _ _ => "delete_message"
  | op_get_user_info _ => "get_user_info"
  | op_get_channel_info _ => "get_channel_info"
  | op_fetch_channel_messages _ _ => "fetch_channel_messages"
  | op_get_user_messages _ _ => "get_user_messages"
  | op_get_user_friends _ => "get_user_friends"
  | op_create_channel _ _ => "create_channel"
  end.

(** The documented success status of each operation (the column
    "Success status" of the interface table). *)
Definition success_status (op : operation) : Z :=
  match op with
  | op_delete_message _ _ => 204
  | op_create_channel _ _ => 201
  | _ => 200
  end.

(** The text each operation puts in front of the status code when it
    raises. *)
Definition failure_text (op : operation) : string :=
  match op with
  | op_connect => "Failed to connect to Discord"
  | op_send_message _ _ => "Failed to send message"
  | op_receive_message _ => "Failed to receive message"
  | op_edit_message _ _ _ => "Failed to edit message"
  | op_delete_message _ _ => "Failed to delete message"
  | op_get_user_info _ => "Failed to get user info"
  | op_get_channel_info _ => "Failed to get channel info"
  | op_fetch_channel_messages _ _ => "Failed to fetch channel messages"
  | op_get_user_messages _ _ => "Failed to fetch user messages"
  | op_get_user_friends _ => "Failed to fetch user friends"
  | op_create_channel _ _ => "Failed to create channel"
  end.

(** The class of the exception a call raised, if it raised. *)
Definition raised_class {A} (r : result A) : option string :=
  match r with
  | Raise e => Some (exn_class e)
  | Return _ => None
  end.

(** The error kind the specification assigns to a failure of each
    operation. *)
Definition documented_error_class (op : operation) : string :=
  match op with
  | op_connect => "ConnectionError"
  | _ => "RequestError"
  end.

(** *** Documented body shapes *)

(** [j] is a JSON message object and [m] the record the field mapping
    [id], [content], [author.username] assigns to it. *)
Definition message_json (j : pyval) (m : Message.t) : Prop :=
  exists d a : gmap string pyval,
    j = VDict d /\
    d !! "id" = Some (Message.id m) /\
    d !! "content" = Some (Message.content m) /\
    d !! "author" = Some (VDict a) /\
    a !! "username" = Some (Message.author m).

Definition has_key (d : gmap string pyval) (key : string) : bool :=
  match d !! key with Some _ => true | None => false end.

(** A body is well formed for a record when it is an object that has every
    field the mapping reads. *)
Definition well_formed_message (j : pyval) : bool :=
  match j with
  | VDict d =>
      has_key d "id" && has_key d "content" &&
      match d !! "author" with
      | Some (VDict a) => has_key a "username"
      | _ => false
      end
  | _ => false
  end.

Definition well_formed_user (j : pyval) : bool :=
  match j with
  | VDict d =>
      has_key d "id" && has_key d "username" &&
      has_key d "discriminator" && has_key d "avatar"
  | _ => false
  end.

Definition well_formed_channel (j : pyval) : bool :=
  match j with
  | VDict d => has_key d "id" && has_key d "name" && has_key d "type"
  | _ => false
  end.

Definition well_formed_array (elem : pyval -> bool) (j : pyval) : bool :=
  match j with
  | VList l => forallb elem l
  | _ => false
  end.

(** The operations that decode a Message, a User or a Channel. *)
Definition decodes_record (op : operation) : bool :=
  match op with
  | op_receive_message _ | op_get_user_info _ | op_get_channel_info _
  | op_fetch_channel_messages _ _ | op_get_user_messages _ _
  | op_get_user_friends _ | op_create_channel _ _ => true
  | _ => false
  end.

(** The operations that decode a JSON array of records. *)
Definition decodes_array (op : operation) : bool :=
  match op with
  | op_fetch_channel_messages _ _ | op_get_user_messages _ _
  | op_get_user_friends _ => true
  | _ => false
  end.

(** The body of a success response has the documented shape for [op]: it
    decodes, and the decoded value is the record (or array of records) of
    the interface table. *)
Definition well_formed_body (op : operation) (body : result pyval) : bool :=
  match body with
  | Raise _ => false
  | Return j =>
      match op with
      | op_receive_message _ => well_formed_message j
      | op_get_user_info _ => well_formed_user j
      | op_get_channel_info _ | op_create_channel _ _ => well_formed_channel j
      | op_fetch_channel_messages _ _ | op_get_user_messages _ _ =>
          well_formed_array well_formed_message j
      | op_get_user_friends _ => well_formed_array well_formed_user j
      | _ => true
      end
  end.

(** The empty list an array operation returns. *)
Definition empty_result (op : operation) : retval :=
  match op with
  | op_get_user_friends _ => RUsers []
  | _ => RMessages []
  end.

(** The documented URLs of the two batch operations,
    [{base}/channels/{cid}/messages?limit={limit}] and
    [{base}/users/{uid}/messages?limit={limit}], with the texts that stand in
    the three places. *)
Definition channel_messages_url (base cid limit : string) : string :=
  base +:+ "/channels/" +:+ cid +:+ "/messages?limit=" +:+ limit.

Definition user_messages_url (base uid limit : string) : string :=
  base +:+ "/users/" +:+ uid +:+ "/messages?limit=" +:+ limit.

(** The message of the [ValueError] an operation raises on status [s]. *)
Definition failure_message (op : operation) (s : Z) : string :=
  failure_text op +:+ ": " +:+ pretty s.

(** *** Sample values *)

Definition example_client : DiscordClient := __init__ "https://discord.example/api".

Definition not_found : response := Response 404 (Return (VDict ∅)).

(** [{"id": "1", "name": "general", "type": "text"}] *)
Definition general_channel : gmap string pyval :=
  <["id" := VStr "1"]> (<["name" := VStr "general"]> (<["type" := VStr "text"]> ∅)).

(** [{"url": "wss://gateway.example"}] *)
Definition gateway_body : gmap string pyval :=
  <["url" := VStr "wss://gateway.example"]> ∅.

(** [{"id": 5, "content": "hello", "author": {"username": "ada"}}] *)
Definition hello_message : pyval :=
  VDict (<["id" := VInt 5]> (<["content" := VStr "hello"]>
          (<["author" := VDict (<["username" := VStr "ada"]> ∅)]> ∅))).

Definition hello_record : Message.t := Message.mk (VInt 5) (VStr "hello") (VStr "ada").

(** [{"id": 6, "content": "bye", "author": {"username": "bob", "id": 2}}] *)
Definition bye_message : pyval :=
  VDict (<["id" := VInt 6]> (<["content" := VStr "bye"]>
          (<["author" := VDict (<["username" := VStr "bob"]> (<["id" := VInt 2]> ∅))]> ∅))).

Definition bye_record : Message.t := Message.mk (VInt 6) (VStr "bye") (VStr "bob").

(** [{"id": 7, "username": "ada", "discriminator": 1815}]: a User body
    without [avatar]. *)
Definition user_without_avatar : pyval :=
  VDict (<["id" := VInt 7]> (<["username" := VStr "ada"]>
          (<["discriminator" := VInt 1815]> ∅))).

(** *** Further shapes and compositions *)

(** [j] is a JSON user object and [u] the record the field mapping [id],
    [username], [discriminator], [avatar] assigns to it. *)
Definition user_json (j : pyval) (u : User.t) : Prop :=
  exists d : gmap string pyval,
    j = VDict d /\
    d !! "id" = Some (User.id u) /\
    d !! "username" = Some (User.username u) /\
    d !! "discriminator" = Some (User.discriminator u) /\
    d !! "avatar" = Some (User.avatar u).

Definition is_dict (j : pyval) : bool :=
  match j with VDict _ => true | _ => false end.

(** The first of [keys], in order, that the dict does not have. *)
Definition first_missing (d : gmap string pyval) (keys : list string) : option string :=
  List.find (fun key => negb (has_key d key)) keys.

(** The operations whose success branch calls [response.json()]. *)
Definition reads_body (op : operation) : bool :=
  match op with
  | op_send_message _ _ | op_edit_message _ _ _ | op_delete_message _ _ => false
  | _ => true
  end.

(** The operations that subscript the decoded body itself with a key. *)
Definition decodes_object (op : operation) : bool :=
  match op with
  | op_connect | op_receive_message _ | op_get_user_info _
  | op_get_channel_info _ | op_create_channel _ _ => true
  | _ => false
  end.

(** A caller that awaits [connect] once per response of [rs], going on after
    an exception. *)
Definition connects (self : DiscordClient) (rs : list response) : DiscordClient :=
  fold_left (fun client r => snd (resume (connect client) r)) rs self.

(** No character of [s] is [c]. *)
Fixpoint free_of (c : Ascii.ascii) (s : string) : bool :=
  match s with
  | EmptyString => true
  | String a s' => negb (Ascii.eqb a c) && free_of c s'
  end.

(** [{"id": 7, "username": "ada", "discriminator": 1815, "avatar": null}] *)
Definition ada_user : pyval :=
  VDict (<["id" := VInt 7]> (<["username" := VStr "ada"]>
          (<["discriminator" := VInt 1815]> (<["avatar" := VNone]> ∅)))).

Definition ada_record : User.t := User.mk (VInt 7) (VStr "ada") (VInt 1815) VNone.

(** [{"id": 5, "content": "hello", "author": "ada"}]: the author is a
    string, not an object. *)
Definition text_author : gmap string pyval :=
  <["id" := VInt 5]> (<["content" := VStr "hello"]> (<["author" := VStr "ada"]> ∅)).

Definition gateway_response : response := Response 200 (Return (VDict gateway_body)).

(** * Properties *)

(** ** The model on sample inputs *)

Example fetch_default_url :
  url (call_request (fetch_channel_messages example_client (FInt 3) None))
  = "https://discord.example/api/channels/3/messages?limit=10".
Proof. reflexivity. Qed.

Example fetch_negative_limit_url :
  url (call_request (get_user_messages example_client (FStr "u1") (Some (FInt (-5)))))
  = "https://discord.example/api/users/u1/messages?limit=-5".
Proof. reflexivity. Qed.

Example get_user_info_missing_avatar :
  resume (get_user_info example_client (FInt 7)) (Response 200 (Return user_without_avatar))
  = Raise (KeyError "avatar").
Proof. reflexivity. Qed.

Example fetch_array_with_bad_element :
  resume (fetch_channel_messages example_client (FInt 3) None)
    (Response 200 (Return (VList [hello_message; VDict ∅])))
  = Raise (KeyError "id").
Proof. reflexivity. Qed.

Example fetch_nonempty_object :
  resume (fetch_channel_messages example_client (FInt 3) None)
    (Response 200 (Return hello_message))
  = Raise TypeError.
Proof. reflexivity. Qed.

Example delete_message_200 :
  resume (delete_message example_client (FInt 3) (FInt 9)) (Response 200 (Return VNone))
  = Raise (ValueError "Failed to delete message: 200").
Proof. reflexivity. Qed.

(** ** Status dispatch *)

Lemma fmap_failed {A B} (f : A -> B) text r :
  f <$> (failed text r : result A) = failed text r.
Proof. reflexivity. Qed.

(** Every operation compares the status with one constant and raises on
    everything else, leaving the client alone. *)
Lemma perform_other_status client op r :
  status r <> success_status op ->
  resume (perform client op) r = (failed (failure_text op) r, client).
Proof.
  intros Hne. apply Z.eqb_neq in Hne.
  destruct op; simpl in *; rewrite Hne; reflexivity.
Qed.

Lemma outcome_other_status client op r :
  status r <> success_status op ->
  outcome client op r = failed (failure_text op) r.
Proof.
  intros Hne. unfold outcome. rewrite perform_other_status by assumption.
  reflexivity.
Qed.

(** C1: for every operation and every response whose status is not the
    operation's documented success status, the operation fails: it raises and
    returns no value, so no Message, User or Channel, complete or partial,
    reaches the caller. *)
Theorem failure_on_any_other_status client op r :
  status r <> success_status op ->
  (exists e, outcome client op r = Raise e) /\
  (forall v, outcome client op r <> Return v).
Proof.
  intros Hne. rewrite outcome_other_status by assumption.
  split; [eexists; reflexivity | discriminate].
Qed.

Lemma failure_on_any_other_status_witness :
  (exists e, outcome example_client (op_get_user_info (FInt 7)) not_found = Raise e) /\
  (forall v, outcome example_client (op_get_user_info (FInt 7)) not_found <> Return v).
Proof.
  apply (failure_on_any_other_status example_client (op_get_user_info (FInt 7)) not_found).
  simpl. lia.
Defined.

(** C2: [delete_message] succeeds exactly on status 204.  Every other
    status, 200 included, makes it raise, whereas [send_message] and
    [edit_message] succeed on 200. *)
Theorem delete_message_only_204 self cid mid text r body :
  (resume (delete_message self cid mid) r = Return true <-> status r = 204) /\
  (is_Raise (resume (delete_message self cid mid) r) = true <-> status r <> 204) /\
  is_Raise (resume (delete_message self cid mid) (Response 200 body)) = true /\
  resume (send_message self cid text) (Response 200 body) = Return true /\
  resume (edit_message self cid mid text) (Response 200 body) = Return true.
Proof.
  repeat split; simpl.
  - destruct (Z.eqb_spec (status r) 204); [done | discriminate].
  - intros ->. reflexivity.
  - destruct (Z.eqb_spec (status r) 204); [discriminate | done].
  - intros Hne. apply Z.eqb_neq in Hne. rewrite Hne. reflexivity.
Qed.

(** ** Error kinds *)

(** The message names the operation and the status: two failures with the
    same message come from the same operation and the same status. *)
Lemma failure_message_inj op op' s s' :
  failure_message op s = failure_message op' s' ->
  operation_name op = operation_name op' /\ s = s'.
Proof.
  unfold failure_message.
  destruct op, op'; simpl; intros H; simplify_eq; split; try reflexivity;
    try (apply (inj pretty); assumption).
Qed.

(** C3 as the specification words it fails: on status 404 [connect] does not
    raise a ConnectionError, [send_message] does not raise a RequestError,
    and the two exceptions have the same class. *)
Lemma error_kinds_counterexample :
  raised_class (outcome example_client op_connect not_found)
    <> Some (documented_error_class op_connect) /\
  raised_class (outcome example_client (op_send_message (FInt 1) (FStr "hi")) not_found)
    <> Some (documented_error_class (op_send_message (FInt 1) (FStr "hi"))) /\
  raised_class (outcome example_client op_connect not_found)
    = raised_class (outcome example_client (op_send_message (FInt 1) (FStr "hi")) not_found).
Proof. vm_compute. repeat split; discriminate. Qed.

(** C3, amended: every failure on a status other than the success status,
    that of [connect] included, raises a [ValueError]; its message is the
    operation's own text followed by the decimal status code, so the message
    (and nothing else) tells the operation and the status. *)
Theorem failure_raises_ValueError client op r :
  status r <> success_status op ->
  outcome client op r = Raise (ValueError (failure_message op (status r))) /\
  raised_class (outcome client op r) = Some "ValueError" /\
  (forall client' op' r',
      status r' <> success_status op' ->
      outcome client' op' r' = outcome client op r ->
      operation_name op' = operation_name op /\ status r' = status r).
Proof.
  intros Hne. rewrite outcome_other_status by assumption.
  split; [reflexivity | split; [reflexivity |]].
  intros client' op' r' Hne' Heq.
  rewrite outcome_other_status in Heq by assumption.
  injection Heq as Heq. exact (failure_message_inj op' op _ _ Heq).
Qed.

Lemma failure_raises_ValueError_witness :
  outcome example_client (op_send_message (FInt 1) (FStr "hi")) not_found
    = Raise (ValueError "Failed to send message: 404").
Proof.
  apply (failure_raises_ValueError example_client (op_send_message (FInt 1) (FStr "hi"))
           not_found).
  simpl. lia.
Defined.

(** ** Decoding *)

Lemma subscript_lookup d key v : d !! key = Some v -> subscript (VDict d) key = Return v.
Proof. intros H. simpl. rewrite H. reflexivity. Qed.

Lemma Message_of_json j m : message_json j m -> Message_of j = Return m.
Proof.
  intros (d & a & -> & Hid & Hcontent & Hauthor & Husername).
  unfold Message_of.
  rewrite (subscript_lookup _ _ _ Hid), (subscript_lookup _ _ _ Hcontent),
    (subscript_lookup _ _ _ Hauthor).
  simpl. rewrite Husername. destruct m; reflexivity.
Qed.

(** A comprehension returns exactly the element-wise results, in order, and
    returns at all only when every element does. *)
Lemma comprehension_Return {A B} (f : A -> result B) xs ys :
  comprehension f xs = Return ys <-> Forall2 (fun x y => f x = Return y) xs ys.
Proof.
  revert ys. induction xs as [|x xs IH]; intros ys; simpl.
  - split.
    + intros [= <-]. constructor.
    + intros H. inversion H. reflexivity.
  - split.
    + destruct (f x) as [y|e] eqn:Hx; simpl; [|discriminate].
      destruct (comprehension f xs) as [ys'|e] eqn:Hxs; simpl; [|discriminate].
      intros [= <-]. constructor; [assumption|]. apply IH. reflexivity.
    + intros H. inversion H as [|? y ? ys' Hx Hrest]; subst.
      rewrite Hx. simpl. apply IH in Hrest. rewrite Hrest. reflexivity.
Qed.

(** C4: on status 201 with a body that has [id], [name] and [type],
    [create_channel] returns the Channel with exactly these three values; on
    every other status it raises. *)
Theorem create_channel_decodes client name type r :
  (forall d i n t,
      status r = 201 -> json r = Return (VDict d) ->
      d !! "id" = Some i -> d !! "name" = Some n -> d !! "type" = Some t ->
      resume (create_channel client name type) r = Return (Channel.mk i n t)) /\
  (status r <> 201 ->
   exists e, resume (create_channel client name type) r = Raise e).
Proof.
  split.
  - intros d i n t Hstatus Hjson Hid Hname Htype. simpl.
    rewrite Hstatus, Hjson. simpl. unfold Channel_of.
    rewrite (subscript_lookup _ _ _ Hid), (subscript_lookup _ _ _ Hname),
      (subscript_lookup _ _ _ Htype).
    reflexivity.
  - intros Hne. apply Z.eqb_neq in Hne. simpl. rewrite Hne.
    eexists. reflexivity.
Qed.

Lemma create_channel_decodes_witness :
  resume (create_channel example_client (FStr "general") (FStr "text"))
    (Response 201 (Return (VDict general_channel)))
  = Return (Channel.mk (VStr "1") (VStr "general") (VStr "text")).
Proof.
  apply (proj1 (create_channel_decodes example_client (FStr "general") (FStr "text")
                  (Response 201 (Return (VDict general_channel))))
           general_channel);
    reflexivity.
Defined.

(** C5: on status 200, [receive_message] maps a message body to the Message
    with the body's [id] and [content] and with the nested author's
    [username] as [author]; [fetch_channel_messages] and [get_user_messages]
    apply the same mapping to each element of the array. *)
Theorem message_mapping_exact client ident limit r :
  status r = 200 ->
  (forall j m,
      json r = Return j -> message_json j m ->
      resume (receive_message client ident) r = Return m) /\
  (forall js ms,
      json r = Return (VList js) -> Forall2 message_json js ms ->
      resume (fetch_channel_messages client ident limit) r = Return ms /\
      resume (get_user_messages client ident limit) r = Return ms).
Proof.
  intros Hstatus. split.
  - intros j m Hjson Hm. simpl. rewrite Hstatus, Hjson. simpl.
    apply Message_of_json, Hm.
  - intros js ms Hjson Hms.
    assert (comprehension Message_of js = Return ms) as Hall.
    { apply comprehension_Return.
      eapply Forall2_impl; [exact Hms|]. intros j m. apply Message_of_json. }
    split; simpl; rewrite Hstatus, Hjson; simpl; exact Hall.
Qed.

Lemma message_mapping_exact_witness :
  resume (receive_message example_client (FInt 3)) (Response 200 (Return hello_message))
  = Return hello_record.
Proof.
  apply (proj1 (message_mapping_exact example_client (FInt 3) None
                  (Response 200 (Return hello_message)) eq_refl)
           hello_message hello_record eq_refl).
  eexists _, _. repeat split; reflexivity.
Defined.

(** C6: on status 200 with a body that has [url], [connect] returns
    normally and afterwards the client's gateway URL is the body's [url]. *)
Theorem connect_stores_url self r d gateway :
  status r = 200 -> json r = Return (VDict d) -> d !! "url" = Some gateway ->
  fst (resume (connect self) r) = Return () /\
  gateway_url (snd (resume (connect self) r)) = Some gateway /\
  api_url (snd (resume (connect self) r)) = api_url self.
Proof.
  intros Hstatus Hjson Hurl. simpl. rewrite Hstatus, Hjson. simpl.
  rewrite Hurl. repeat split.
Qed.

Lemma connect_stores_url_witness :
  gateway_url
    (snd (resume (connect example_client) (Response 200 (Return (VDict gateway_body)))))
  = Some (VStr "wss://gateway.example").
Proof.
  apply (connect_stores_url example_client (Response 200 (Return (VDict gateway_body)))
           gateway_body (VStr "wss://gateway.example"));
    reflexivity.
Defined.

Lemma Message_of_Return j m : Message_of j = Return m <-> message_json j m.
Proof.
  split; [|apply Message_of_json].
  destruct j as [| | | | |l|d]; try discriminate.
  unfold Message_of. simpl.
  destruct (d !! "id") as [i|] eqn:Hid; simpl; [|discriminate].
  destruct (d !! "content") as [c|] eqn:Hcontent; simpl; [|discriminate].
  destruct (d !! "author") as [[| | | | |l|a]|] eqn:Hauthor; simpl; try discriminate.
  destruct (a !! "username") as [u|] eqn:Husername; simpl; [|discriminate].
  intros [= <-]. exists d, a. repeat split; assumption.
Qed.

Lemma comprehension_Message_of js ms :
  comprehension Message_of js = Return ms <-> Forall2 message_json js ms.
Proof.
  rewrite comprehension_Return. split; intros H;
    (eapply Forall2_impl; [exact H|]); intros j m; apply Message_of_Return.
Qed.

(** C7: on status 200 an empty JSON array makes [fetch_channel_messages]
    and [get_user_messages] return the empty list; for any array of message
    objects they return the list of the Messages the field mapping assigns to
    the elements, one per element and in the array's order, and they return
    nothing else. *)
Theorem array_elementwise client ident limit r :
  status r = 200 ->
  (json r = Return (VList []) ->
   resume (fetch_channel_messages client ident limit) r = Return [] /\
   resume (get_user_messages client ident limit) r = Return []) /\
  (forall js ms,
      json r = Return (VList js) ->
      (resume (fetch_channel_messages client ident limit) r = Return ms <->
       Forall2 message_json js ms) /\
      (resume (get_user_messages client ident limit) r = Return ms <->
       Forall2 message_json js ms)).
Proof.
  intros Hstatus. split.
  - intros Hjson. simpl. rewrite Hstatus, Hjson. split; reflexivity.
  - intros js ms Hjson. simpl. rewrite Hstatus, Hjson. simpl.
    split; apply comprehension_Message_of.
Qed.

Lemma array_elementwise_witness :
  resume (fetch_channel_messages example_client (FInt 3) None)
    (Response 200 (Return (VList [hello_message; bye_message])))
  = Return [hello_record; bye_record].
Proof.
  apply (proj2 (proj1 (proj2 (array_elementwise example_client (FInt 3) None
                  (Response 200 (Return (VList [hello_message; bye_message]))) eq_refl)
                  [hello_message; bye_message] [hello_record; bye_record] eq_refl))).
  repeat constructor; eexists _, _; repeat split; reflexivity.
Defined.

(** ** Request URLs *)

(** C9: the value of [limit] goes into the [limit] query parameter as it
    is, with nothing checked, clamped or cleaned: an integer as its decimal
    text (zero and negatives included), a string as the string itself, a
    float as its [repr], [None] and the booleans as Python spells them.
    Omitting [limit] is the same as passing 10.  Distinct integers give
    distinct URLs, and the way the response is handled does not depend on
    [limit], so no value of it is rejected by the client. *)
Theorem limit_passed_verbatim client ident :
  (forall n : Z,
      call_request (fetch_channel_messages client ident (Some (FInt n)))
      = session_get (channel_messages_url (api_url client) (format ident) (pretty n)) /\
      call_request (get_user_messages client ident (Some (FInt n)))
      = session_get (user_messages_url (api_url client) (format ident) (pretty n))) /\
  (forall s : string,
      call_request (fetch_channel_messages client ident (Some (FStr s)))
      = session_get (channel_messages_url (api_url client) (format ident) s) /\
      call_request (get_user_messages client ident (Some (FStr s)))
      = session_get (user_messages_url (api_url client) (format ident) s)) /\
  (forall repr : string,
      call_request (fetch_channel_messages client ident (Some (FFloat repr)))
      = session_get (channel_messages_url (api_url client) (format ident) repr) /\
      call_request (get_user_messages client ident (Some (FFloat repr)))
      = session_get (user_messages_url (api_url client) (format ident) repr)) /\
  (forall b : bool,
      call_request (fetch_channel_messages client ident (Some (FBool b)))
      = session_get (channel_messages_url (api_url client) (format ident)
                       (if b then "True" else "False")) /\
      call_request (get_user_messages client ident (Some (FBool b)))
      = session_get (user_messages_url (api_url client) (format ident)
                       (if b then "True" else "False"))) /\
  (call_request (fetch_channel_messages client ident (Some FNone))
   = session_get (channel_messages_url (api_url client) (format ident) "None") /\
   call_request (get_user_messages client ident (Some FNone))
   = session_get (user_messages_url (api_url client) (format ident) "None")) /\
  (call_request (fetch_channel_messages client ident None)
   = session_get (channel_messages_url (api_url client) (format ident) "10") /\
   call_request (get_user_messages client ident None)
   = session_get (user_messages_url (api_url client) (format ident) "10")) /\
  (forall n m : Z,
      (url (call_request (fetch_channel_messages client ident (Some (FInt n))))
       = url (call_request (fetch_channel_messages client ident (Some (FInt m))))
       -> n = m) /\
      (url (call_request (get_user_messages client ident (Some (FInt n))))
       = url (call_request (get_user_messages client ident (Some (FInt m))))
       -> n = m)) /\
  (forall limit limit' r,
      resume (fetch_channel_messages client ident limit) r
      = resume (fetch_channel_messages client ident limit') r /\
      resume (get_user_messages client ident limit) r
      = resume (get_user_messages client ident limit') r).
Proof.
  split; [intros n; split; reflexivity|].
  split; [intros s; split; reflexivity|].
  split; [intros repr; split; reflexivity|].
  split; [intros [|]; split; reflexivity|].
  split; [split; reflexivity|].
  split; [split; reflexivity|].
  split; [|intros limit limit' r; split; reflexivity].
  intros n m.
  split; unfold fetch_channel_messages, get_user_messages, session_get; cbn -[String.append pretty];
    intros H; repeat apply (inj (String.append _)) in H; exact (inj pretty _ _ H).
Qed.

(** ** Client state *)

(** C10: a [connect] that receives a status other than 200 raises and leaves
    the client as it was: [api_url] and the gateway URL are untouched, and a
    client fresh from [__init__] still has no gateway URL.  Only a response
    with status 200 can change the client. *)
Theorem failed_connect_keeps_state self r :
  status r <> 200 ->
  snd (resume (connect self) r) = self /\
  (exists e, fst (resume (connect self) r) = Raise e) /\
  (forall base, gateway_url (snd (resume (connect (__init__ base)) r)) = None) /\
  (forall r', snd (resume (connect self) r') <> self -> status r' = 200).
Proof.
  intros Hne. apply Z.eqb_neq in Hne. simpl. rewrite Hne. simpl.
  split; [reflexivity|]. split; [eexists; reflexivity|]. split; [reflexivity|].
  intros r'. destruct (Z.eqb_spec (status r') 200); [done|].
  intros Hchanged. contradict Hchanged. reflexivity.
Qed.

Lemma failed_connect_keeps_state_witness :
  snd (resume (connect example_client) not_found) = example_client.
Proof.
  apply (failed_connect_keeps_state example_client not_found).
  simpl. lia.
Defined.

(** ** Malformed bodies *)

Lemma Message_of_well_formed j : is_Return (Message_of j) = well_formed_message j.
Proof.
  destruct j as [| | | | |l|d]; try reflexivity.
  unfold Message_of, well_formed_message, has_key. simpl.
  destruct (d !! "id"); simpl; [|reflexivity].
  destruct (d !! "content"); simpl; [|reflexivity].
  destruct (d !! "author") as [[| | | | |l|a]|]; simpl; try reflexivity.
  destruct (a !! "username"); reflexivity.
Qed.

Lemma User_of_well_formed j : is_Return (User_of j) = well_formed_user j.
Proof.
  destruct j as [| | | | |l|d]; try reflexivity.
  unfold User_of, well_formed_user, has_key. simpl.
  destruct (d !! "id"); simpl; [|reflexivity].
  destruct (d !! "username"); simpl; [|reflexivity].
  destruct (d !! "discriminator"); simpl; [|reflexivity].
  destruct (d !! "avatar"); reflexivity.
Qed.

Lemma Channel_of_well_formed j : is_Return (Channel_of j) = well_formed_channel j.
Proof.
  destruct j as [| | | | |l|d]; try reflexivity.
  unfold Channel_of, well_formed_channel, has_key. simpl.
  destruct (d !! "id"); simpl; [|reflexivity].
  destruct (d !! "name"); simpl; [|reflexivity].
  destruct (d !! "type"); reflexivity.
Qed.

Lemma is_Return_false {A} (r : result A) : is_Return r = false -> exists e, r = Raise e.
Proof. destruct r; [discriminate | eauto]. Qed.

Lemma fmap_Raise {A B} (f : A -> B) (r : result A) :
  (exists e, r = Raise e) -> exists e, f <$> r = Raise e.
Proof. intros [e ->]. eauto. Qed.

Lemma forallb_pointwise {A} (p q : A -> bool) xs :
  (forall x, p x = q x) -> forallb p xs = forallb q xs.
Proof.
  intros Hpq. induction xs as [|x xs IH]; simpl; [reflexivity|].
  rewrite Hpq, IH. reflexivity.
Qed.

Lemma comprehension_is_Return {A B} (f : A -> result B) xs :
  is_Return (comprehension f xs) = forallb (fun x => is_Return (f x)) xs.
Proof.
  induction xs as [|x xs IH]; simpl; [reflexivity|].
  destruct (f x); simpl; [|reflexivity].
  rewrite <- IH. destruct (comprehension f xs); reflexivity.
Qed.

(** The body of an array operation on a value that is not a well-formed
    array: it raises, unless the value is an empty dict or an empty str, which
    iterate over nothing. *)
Lemma array_malformed {B} (f : pyval -> result B) (wf : pyval -> bool) j :
  (forall x, is_Return (f x) = wf x) ->
  (forall s, f (VStr s) = Raise TypeError) ->
  well_formed_array wf j = false ->
  (exists e, (xs ← iter j; comprehension f xs) = Raise e) \/
  ((j = VDict ∅ \/ j = VStr EmptyString) /\
   (xs ← iter j; comprehension f xs) = Return []).
Proof.
  intros Hwf Hstr Hbad.
  destruct j as [| | | |s|l|d]; simpl in *; try (left; eexists; reflexivity).
  - destruct s as [|c s]; [right; split; [right|]; reflexivity|].
    left. simpl. rewrite Hstr. eexists; reflexivity.
  - left. apply is_Return_false. rewrite comprehension_is_Return.
    rewrite <- Hbad. apply forallb_pointwise, Hwf.
  - destruct (map_to_list d) as [|[k v] kvs] eqn:Hkeys.
    + apply map_to_list_empty_iff in Hkeys as ->.
      right. split; [left|]; reflexivity.
    + left. simpl. rewrite Hstr. eexists; reflexivity.
Qed.

(** C8 as the specification words it fails: the body [{}], which is not an
    array, makes [fetch_channel_messages] return the empty list on status
    200. *)
Lemma malformed_body_counterexample :
  decodes_record (op_fetch_channel_messages (FInt 3) None) = true /\
  status (Response 200 (Return (VDict ∅)))
    = success_status (op_fetch_channel_messages (FInt 3) None) /\
  well_formed_body (op_fetch_channel_messages (FInt 3) None) (Return (VDict ∅)) = false /\
  outcome example_client (op_fetch_channel_messages (FInt 3) None)
    (Response 200 (Return (VDict ∅)))
  = Return (RMessages []) /\
  ~ (exists e, outcome example_client (op_fetch_channel_messages (FInt 3) None)
                 (Response 200 (Return (VDict ∅))) = Raise e).
Proof.
  split; [reflexivity|]. split; [reflexivity|]. split; [reflexivity|].
  split; [reflexivity|]. intros [e He]. discriminate He.
Qed.

(** C8, amended: on the success status, a body that does not decode, is
    not of the documented shape or lacks a required field makes the operation
    raise, and then nothing is returned; the one exception is an array
    operation that receives an empty object or an empty string, and that one
    returns the empty list. *)
Theorem malformed_body_fails client op r :
  decodes_record op = true ->
  status r = success_status op ->
  well_formed_body op (json r) = false ->
  (decodes_array op = true /\
   (json r = Return (VDict ∅) \/ json r = Return (VStr EmptyString)) ->
   outcome client op r = Return (empty_result op)) /\
  (~ (decodes_array op = true /\
      (json r = Return (VDict ∅) \/ json r = Return (VStr EmptyString))) ->
   exists e, outcome client op r = Raise e).
Proof.
  intros Hdec Hstatus Hbad. destruct r as [s [j|e]]; simpl in *; subst s.
  2: { split.
       - intros [_ [H|H]]; discriminate H.
       - intros _. destruct op; try discriminate; eexists; reflexivity. }
  split.
  - intros [Harr Hempty].
    destruct op; try discriminate Harr; unfold outcome; simpl;
      destruct Hempty as [[= ->]|[= ->]]; reflexivity.
  - intros Hnot. destruct op; try discriminate; unfold outcome; simpl.
    + apply fmap_Raise, is_Return_false.
      rewrite Message_of_well_formed. exact Hbad.
    + apply fmap_Raise, is_Return_false.
      rewrite User_of_well_formed. exact Hbad.
    + apply fmap_Raise, is_Return_false.
      rewrite Channel_of_well_formed. exact Hbad.
    + destruct (array_malformed Message_of well_formed_message j
                  Message_of_well_formed (fun _ => eq_refl) Hbad)
        as [Hraise|[Hempty _]]; [apply fmap_Raise, Hraise|].
      destruct Hnot. split; [reflexivity|]. destruct Hempty as [->| ->]; auto.
    + destruct (array_malformed Message_of well_formed_message j
                  Message_of_well_formed (fun _ => eq_refl) Hbad)
        as [Hraise|[Hempty _]]; [apply fmap_Raise, Hraise|].
      destruct Hnot. split; [reflexivity|]. destruct Hempty as [->| ->]; auto.
    + destruct (array_malformed User_of well_formed_user j
                  User_of_well_formed (fun _ => eq_refl) Hbad)
        as [Hraise|[Hempty _]]; [apply fmap_Raise, Hraise|].
      destruct Hnot. split; [reflexivity|]. destruct Hempty as [->| ->]; auto.
    + apply fmap_Raise, is_Return_false.
      rewrite Channel_of_well_formed. exact Hbad.
Qed.

Lemma malformed_body_fails_witness :
  outcome example_client (op_get_user_friends (FInt 7))
    (Response 200 (Return (VStr EmptyString)))
  = Return (RUsers []).
Proof.
  refine (proj1 (malformed_body_fails example_client (op_get_user_friends (FInt 7))
                   (Response 200 (Return (VStr EmptyString))) _ _ _) _);
    try reflexivity.
  split; [reflexivity | right; reflexivity].
Defined.

(** Conversely, a well-formed body on the success status always decodes:
    [well_formed_body] is exactly what the decoding operations need. *)
Lemma well_formed_body_returns client op r :
  decodes_record op = true ->
  status r = success_status op ->
  well_formed_body op (json r) = true ->
  exists v, outcome client op r = Return v.
Proof.
  intros Hdec Hstatus Hwf. destruct r as [s [j|e]]; simpl in *; subst s;
    [|discriminate].
  assert (forall A (wrap : A -> retval) (x : result A),
             is_Return x = true -> exists v, wrap <$> x = Return v) as Hret.
  { intros A wrap [a|e] H; [eexists; reflexivity | discriminate]. }
  destruct op; try discriminate; unfold outcome; simpl; apply Hret.
  - rewrite Message_of_well_formed. exact Hwf.
  - rewrite User_of_well_formed. exact Hwf.
  - rewrite Channel_of_well_formed. exact Hwf.
  - destruct j; try discriminate. simpl. rewrite comprehension_is_Return.
    rewrite <- Hwf. apply forallb_pointwise, Message_of_well_formed.
  - destruct j; try discriminate. simpl. rewrite comprehension_is_Return.
    rewrite <- Hwf. apply forallb_pointwise, Message_of_well_formed.
  - destruct j; try discriminate. simpl. rewrite comprehension_is_Return.
    rewrite <- Hwf. apply forallb_pointwise, User_of_well_formed.
  - rewrite Channel_of_well_formed. exact Hwf.
Qed.

(** * Further properties of the code *)

(** ** Users and channels *)

Lemma User_of_json j u : user_json j u -> User_of j = Return u.
Proof.
  intros (d & -> & Hid & Hname & Hdisc & Havatar). unfold User_of.
  rewrite (subscript_lookup _ _ _ Hid), (subscript_lookup _ _ _ Hname),
    (subscript_lookup _ _ _ Hdisc), (subscript_lookup _ _ _ Havatar).
  destruct u; reflexivity.
Qed.

(** X1: on status 200, [get_user_info] maps a user body to the User with the
    body's [id], [username], [discriminator] and [avatar], whatever their JSON
    types; [get_user_friends] maps an array of such bodies to the list of
    these Users, in the array's order. *)
Theorem user_mapping_exact client ident r :
  status r = 200 ->
  (forall j u,
      json r = Return j -> user_json j u ->
      resume (get_user_info client ident) r = Return u) /\
  (forall js us,
      json r = Return (VList js) -> Forall2 user_json js us ->
      resume (get_user_friends client ident) r = Return us).
Proof.
  intros Hstatus. split.
  - intros j u Hjson Hu. simpl. rewrite Hstatus, Hjson. simpl.
    apply User_of_json, Hu.
  - intros js us Hjson Hus. simpl. rewrite Hstatus, Hjson. simpl.
    apply comprehension_Return.
    eapply Forall2_impl; [exact Hus|]. intros j u. apply User_of_json.
Qed.

Lemma user_mapping_exact_witness :
  resume (get_user_friends example_client (FInt 7))
    (Response 200 (Return (VList [ada_user; ada_user])))
  = Return [ada_record; ada_record].
Proof.
  apply (proj2 (user_mapping_exact example_client (FInt 7)
                  (Response 200 (Return (VList [ada_user; ada_user]))) eq_refl)
           [ada_user; ada_user] [ada_record; ada_record] eq_refl).
  repeat constructor; eexists; repeat split; reflexivity.
Defined.

(** X2: [get_channel_info] on status 200 decodes a body exactly as
    [create_channel] does on status 201: for every body the two give the same
    Channel or raise the same exception; with [id], [name] and [type] present
    that is the Channel of these three values. *)
Theorem channel_info_decodes client ident r :
  status r = 200 ->
  (forall name type,
      resume (get_channel_info client ident) r
      = resume (create_channel client name type) (Response 201 (json r))) /\
  (forall d i n t,
      json r = Return (VDict d) ->
      d !! "id" = Some i -> d !! "name" = Some n -> d !! "type" = Some t ->
      resume (get_channel_info client ident) r = Return (Channel.mk i n t)).
Proof.
  intros Hstatus. split.
  - intros name type. simpl. rewrite Hstatus. reflexivity.
  - intros d i n t Hjson Hid Hname Htype. simpl. rewrite Hstatus, Hjson. simpl.
    unfold Channel_of.
    rewrite (subscript_lookup _ _ _ Hid), (subscript_lookup _ _ _ Hname),
      (subscript_lookup _ _ _ Htype).
    reflexivity.
Qed.

Lemma channel_info_decodes_witness :
  resume (get_channel_info example_client (FInt 1))
    (Response 200 (Return (VDict general_channel)))
  = Return (Channel.mk (VStr "1") (VStr "general") (VStr "text")).
Proof.
  apply (proj2 (channel_info_decodes example_client (FInt 1)
                  (Response 200 (Return (VDict general_channel))) eq_refl)
           general_channel);
    reflexivity.
Defined.

(** ** Which exception *)

Lemma comprehension_first_failure {A B} (f : A -> result B) pre x post e :
  Forall (fun y => is_Return (f y) = true) pre ->
  f x = Raise e ->
  comprehension f (pre ++ x :: post) = Raise e.
Proof.
  intros Hpre Hx. induction Hpre as [|y pre Hy _ IH]; simpl.
  - rewrite Hx. reflexivity.
  - destruct (f y); [|discriminate]. simpl. rewrite IH. reflexivity.
Qed.

(** X3: when an element of the array does not decode, the array operation
    raises the exception of the first such element; the elements before it
    are discarded and the elements after it play no part. *)
Theorem first_bad_element_decides client ident limit r pre x post e :
  status r = 200 ->
  json r = Return (VList (pre ++ x :: post)) ->
  (Forall (fun j => is_Return (Message_of j) = true) pre ->
   Message_of x = Raise e ->
   resume (fetch_channel_messages client ident limit) r = Raise e /\
   resume (get_user_messages client ident limit) r = Raise e) /\
  (Forall (fun j => is_Return (User_of j) = true) pre ->
   User_of x = Raise e ->
   resume (get_user_friends client ident) r = Raise e).
Proof.
  intros Hstatus Hjson. simpl. rewrite Hstatus, Hjson. simpl.
  split; [intros Hpre Hx; split | intros Hpre Hx];
    apply comprehension_first_failure; assumption.
Qed.

Lemma first_bad_element_decides_witness :
  resume (get_user_friends example_client (FInt 7))
    (Response 200 (Return (VList ([ada_user] ++ user_without_avatar :: [VNone]))))
  = Raise (KeyError "avatar").
Proof.
  apply (proj2 (first_bad_element_decides example_client (FInt 7) None
                  (Response 200 (Return (VList ([ada_user] ++ user_without_avatar :: [VNone]))))
                  [ada_user] user_without_avatar [VNone] (KeyError "avatar")
                  eq_refl eq_refl)).
  - repeat constructor.
  - reflexivity.
Defined.

Lemma User_of_first_missing d k :
  first_missing d ["id"; "username"; "discriminator"; "avatar"] = Some k ->
  User_of (VDict d) = Raise (KeyError k).
Proof.
  unfold first_missing, has_key, User_of. simpl.
  destruct (d !! "id"); simpl; [|intros [= <-]; reflexivity].
  destruct (d !! "username"); simpl; [|intros [= <-]; reflexivity].
  destruct (d !! "discriminator"); simpl; [|intros [= <-]; reflexivity].
  destruct (d !! "avatar"); simpl; [discriminate|intros [= <-]; reflexivity].
Qed.

Lemma Channel_of_first_missing d k :
  first_missing d ["id"; "name"; "type"] = Some k ->
  Channel_of (VDict d) = Raise (KeyError k).
Proof.
  unfold first_missing, has_key, Channel_of. simpl.
  destruct (d !! "id"); simpl; [|intros [= <-]; reflexivity].
  destruct (d !! "name"); simpl; [|intros [= <-]; reflexivity].
  destruct (d !! "type"); simpl; [discriminate|intros [= <-]; reflexivity].
Qed.

Lemma Message_of_first_missing d k :
  first_missing d ["id"; "content"; "author"] = Some k ->
  Message_of (VDict d) = Raise (KeyError k).
Proof.
  unfold first_missing, has_key, Message_of. simpl.
  destruct (d !! "id"); simpl; [|intros [= <-]; reflexivity].
  destruct (d !! "content"); simpl; [|intros [= <-]; reflexivity].
  destruct (d !! "author"); simpl; [discriminate|intros [= <-]; reflexivity].
Qed.

(** X4: on the success status, an object body that lacks fields makes the
    operation raise a [KeyError] that names the first missing field in the
    order the constructor call reads them: [id], [username], [discriminator],
    [avatar] for a User; [id], [name], [type] for a Channel; [id], [content],
    [author] for a Message. *)
Theorem missing_field_named client ident name type d k :
  (first_missing d ["id"; "username"; "discriminator"; "avatar"] = Some k ->
   resume (get_user_info client ident) (Response 200 (Return (VDict d)))
   = Raise (KeyError k)) /\
  (first_missing d ["id"; "name"; "type"] = Some k ->
   resume (get_channel_info client ident) (Response 200 (Return (VDict d)))
   = Raise (KeyError k) /\
   resume (create_channel client name type) (Response 201 (Return (VDict d)))
   = Raise (KeyError k)) /\
  (first_missing d ["id"; "content"; "author"] = Some k ->
   resume (receive_message client ident) (Response 200 (Return (VDict d)))
   = Raise (KeyError k)).
Proof.
  split; [|split].
  - intros H. simpl. apply User_of_first_missing, H.
  - intros H. split; simpl; apply Channel_of_first_missing, H.
  - intros H. simpl. apply Message_of_first_missing, H.
Qed.

Lemma missing_field_named_witness :
  resume (get_channel_info example_client (FInt 1))
    (Response 200 (Return (VDict (<["id" := VStr "1"]> (<["type" := VStr "text"]> ∅)))))
  = Raise (KeyError "name").
Proof.
  refine (proj1 (proj1 (proj2 (missing_field_named example_client (FInt 1) FNone FNone
                  (<["id" := VStr "1"]> (<["type" := VStr "text"]> ∅)) "name")) _)).
  reflexivity.
Defined.

(** X5: [receive_message] needs the [author] field to be an object with a
    [username]: with [id] and [content] present, an [author] that is not an
    object raises [TypeError], and an [author] object without [username]
    raises [KeyError] for [username]. *)
Theorem author_must_be_object client ident r d i c a :
  status r = 200 ->
  json r = Return (VDict d) ->
  d !! "id" = Some i -> d !! "content" = Some c -> d !! "author" = Some a ->
  (is_dict a = false ->
   resume (receive_message client ident) r = Raise TypeError) /\
  (forall ad, a = VDict ad -> ad !! "username" = None ->
   resume (receive_message client ident) r = Raise (KeyError "username")).
Proof.
  intros Hstatus Hjson Hid Hcontent Hauthor. simpl. rewrite Hstatus, Hjson. simpl.
  unfold Message_of.
  rewrite (subscript_lookup _ _ _ Hid), (subscript_lookup _ _ _ Hcontent),
    (subscript_lookup _ _ _ Hauthor).
  split.
  - intros Ha. destruct a; try reflexivity. discriminate Ha.
  - intros ad -> Hnone. simpl. rewrite Hnone. reflexivity.
Qed.

Lemma author_must_be_object_witness :
  resume (receive_message example_client (FInt 3)) (Response 200 (Return (VDict text_author)))
  = Raise TypeError.
Proof.
  refine (proj1 (author_must_be_object example_client (FInt 3)
                   (Response 200 (Return (VDict text_author)))
                   text_author (VInt 5) (VStr "hello") (VStr "ada") _ _ _ _ _) _);
    reflexivity.
Defined.

(** X6: an operation that subscripts the decoded body ([connect],
    [receive_message], [get_user_info], [get_channel_info], [create_channel])
    raises [TypeError] when the success response's body decodes to anything
    but an object (null, a number, a string, an array), and leaves the client
    as it was. *)
Theorem non_object_body_TypeError client op r j :
  decodes_object op = true ->
  status r = success_status op ->
  json r = Return j ->
  is_dict j = false ->
  resume (perform client op) r = (Raise TypeError, client).
Proof.
  intros Hop Hstatus Hjson Hj. destruct r as [s body]. simpl in *. subst s body.
  destruct op; try discriminate Hop; destruct j; try discriminate Hj; reflexivity.
Qed.

Lemma non_object_body_TypeError_witness :
  resume (perform example_client op_connect) (Response 200 (Return (VList [])))
  = (Raise TypeError, example_client).
Proof.
  apply (non_object_body_TypeError example_client op_connect
           (Response 200 (Return (VList []))) (VList []));
    reflexivity.
Defined.

(** X7: when [response.json()] raises on a success response, every
    operation that reads the body lets that very exception through, and the
    client is unchanged. *)
Theorem decode_error_propagates client op r e :
  reads_body op = true ->
  status r = success_status op ->
  json r = Raise e ->
  resume (perform client op) r = (Raise e, client).
Proof.
  intros Hop Hstatus Hjson. destruct r as [s body]. simpl in *. subst s body.
  destruct op; try discriminate Hop; reflexivity.
Qed.

Lemma decode_error_propagates_witness :
  resume (perform example_client (op_get_user_friends (FInt 7)))
    (Response 200 (Raise JSONDecodeError))
  = (Raise JSONDecodeError, example_client).
Proof.
  apply (decode_error_propagates example_client (op_get_user_friends (FInt 7))
           (Response 200 (Raise JSONDecodeError)) JSONDecodeError);
    reflexivity.
Defined.

(** X8: the body is read only on the success status of an operation that
    decodes.  [send_message], [edit_message] and [delete_message] at any
    status, and every operation at a status other than its success status,
    give the same result and client whatever the body is; and the only value
    the first three ever return is [True]. *)
Theorem body_read_only_on_success client op s body body' :
  reads_body op = false \/ s <> success_status op ->
  resume (perform client op) (Response s body)
  = resume (perform client op) (Response s body') /\
  (reads_body op = false ->
   forall r v, outcome client op r = Return v -> v = RBool true).
Proof.
  intros Hcase. split.
  - destruct Hcase as [Hop|Hne].
    + destruct op; try discriminate Hop; reflexivity.
    + rewrite !perform_other_status by exact Hne. reflexivity.
  - intros Hop r v. unfold outcome.
    destruct op; try discriminate Hop; simpl;
      destruct (status r =? _); simpl; congruence.
Qed.

Lemma body_read_only_on_success_witness :
  resume (perform example_client (op_get_user_info (FInt 7)))
    (Response 500 (Return ada_user))
  = resume (perform example_client (op_get_user_info (FInt 7)))
      (Response 500 (Raise JSONDecodeError)).
Proof.
  apply (body_read_only_on_success example_client (op_get_user_info (FInt 7)) 500
           (Return ada_user) (Raise JSONDecodeError)).
  right. simpl. lia.
Defined.

(** ** The gateway URL *)

Lemma connect_keeps_api_url self r :
  api_url (snd (resume (connect self) r)) = api_url self.
Proof.
  simpl. destruct (status r =? 200); [|reflexivity].
  destruct (x ← json r; subscript x "url"); reflexivity.
Qed.

(** X9: [connect] is all or nothing.  For every response, either it returns
    normally, the status is 200, the body is an object with [url] and the
    client now holds exactly that value as gateway URL, or it raises and the
    client is the one it started from.  [api_url] is the same afterwards in
    both cases. *)
Theorem connect_all_or_nothing self r :
  api_url (snd (resume (connect self) r)) = api_url self /\
  ((fst (resume (connect self) r) = Return () /\
    exists d gateway,
      status r = 200 /\ json r = Return (VDict d) /\ d !! "url" = Some gateway /\
      snd (resume (connect self) r) = set_gateway_url self gateway) \/
   ((exists e, fst (resume (connect self) r) = Raise e) /\
    snd (resume (connect self) r) = self)).
Proof.
  simpl. destruct (Z.eqb_spec (status r) 200) as [Hstatus|Hstatus].
  - destruct (json r) as [j|e] eqn:Hjson; simpl.
    + destruct j as [| | | | | |d]; simpl;
        try (split; [reflexivity | right; split; [eexists|]; reflexivity]).
      destruct (d !! "url") as [gateway|] eqn:Hurl; simpl.
      * split; [reflexivity|]. left. split; [reflexivity|].
        exists d, gateway. repeat split; assumption.
      * split; [reflexivity | right; split; [eexists|]; reflexivity].
    + split; [reflexivity | right; split; [eexists|]; reflexivity].
  - split; [reflexivity | right; split; [eexists|]; reflexivity].
Qed.

Lemma connects_snoc self rs r :
  connects self (rs ++ [r]) = snd (resume (connect (connects self rs)) r).
Proof. unfold connects. rewrite fold_left_app. reflexivity. Qed.

Lemma connects_api_url self rs : api_url (connects self rs) = api_url self.
Proof.
  revert self. induction rs as [|r rs IH]; intros self; [reflexivity|].
  change (connects self (r :: rs)) with (connects (snd (resume (connect self) r)) rs).
  rewrite IH. apply connect_keeps_api_url.
Qed.

(** X10: over any sequence of [connect] calls the base URL never changes,
    and a successful [connect] overwrites whatever the earlier calls stored:
    after it the client is the one a single successful [connect] gives. *)
Theorem last_connect_wins self rs r d gateway :
  status r = 200 -> json r = Return (VDict d) -> d !! "url" = Some gateway ->
  connects self (rs ++ [r]) = set_gateway_url self gateway /\
  connects self (rs ++ [r]) = connects self [r] /\
  (forall rs', api_url (connects self rs') = api_url self).
Proof.
  intros Hstatus Hjson Hurl.
  assert (forall c, snd (resume (connect c) r) = set_gateway_url c gateway) as Hone.
  { intros c. simpl. rewrite Hstatus, Hjson. simpl. rewrite Hurl. reflexivity. }
  assert (connects self (rs ++ [r]) = set_gateway_url self gateway) as Hall.
  { rewrite connects_snoc, Hone. unfold set_gateway_url.
    rewrite connects_api_url. reflexivity. }
  split; [exact Hall|]. split; [|apply connects_api_url].
  rewrite Hall. change (connects self [r]) with (snd (resume (connect self) r)).
  symmetry. apply Hone.
Qed.

Lemma last_connect_wins_witness :
  connects example_client
    ([Response 200 (Return (VDict (<["url" := VStr "wss://old.example"]> ∅))); not_found]
       ++ [gateway_response])
  = set_gateway_url example_client (VStr "wss://gateway.example").
Proof.
  refine (proj1 (last_connect_wins example_client
                   [Response 200 (Return (VDict (<["url" := VStr "wss://old.example"]> ∅)));
                    not_found]
                   gateway_response gateway_body (VStr "wss://gateway.example") _ _ _));
    reflexivity.
Defined.

(** X11: the gateway URL is write-only.  Two clients with the same base URL
    issue the same request for every operation and get the same outcome from
    every response, whatever gateway URL either holds; in particular a
    [connect], successful or not, changes nothing about later calls. *)
Theorem gateway_url_never_used client client' op :
  api_url client = api_url client' ->
  call_request (perform client op) = call_request (perform client' op) /\
  (forall r, outcome client op r = outcome client' op r) /\
  (forall r0 r,
      call_request (perform (snd (resume (connect client) r0)) op)
      = call_request (perform client op) /\
      outcome (snd (resume (connect client) r0)) op r = outcome client op r).
Proof.
  assert (forall c c', api_url c = api_url c' ->
            call_request (perform c op) = call_request (perform c' op) /\
            forall r, outcome c op r = outcome c' op r) as Hsame.
  { intros c c' Hurl. split.
    - destruct op; simpl; rewrite Hurl; reflexivity.
    - intros r. unfold outcome.
      destruct op; simpl; try reflexivity.
      destruct (status r =? 200); [|reflexivity].
      destruct (x ← json r; subscript x "url"); reflexivity. }
  intros Hurl. split; [apply Hsame, Hurl|]. split; [apply Hsame, Hurl|].
  intros r0 r.
  destruct (Hsame (snd (resume (connect client) r0)) client) as [Hreq Hout];
    [apply connect_keeps_api_url|].
  split; [exact Hreq | apply Hout].
Qed.

Lemma gateway_url_never_used_witness :
  call_request (perform (set_gateway_url example_client VNone) (op_get_user_info (FInt 7)))
  = call_request (perform example_client (op_get_user_info (FInt 7))).
Proof.
  apply (gateway_url_never_used (set_gateway_url example_client VNone) example_client
           (op_get_user_info (FInt 7))).
  reflexivity.
Defined.

(** ** Requests *)

Lemma append_String a s t : String a s +:+ t = String a (s +:+ t).
Proof. reflexivity. Qed.

Lemma length_append s t :
  String.length (s +:+ t) = (String.length s + String.length t)%nat.
Proof.
  induction s as [|a s IH]; [reflexivity|].
  rewrite append_String. simpl. rewrite IH. reflexivity.
Qed.

Lemma append_assoc s t u : (s +:+ t) +:+ u = s +:+ (t +:+ u).
Proof.
  induction s as [|a s IH]; [reflexivity|].
  rewrite !append_String, IH. reflexivity.
Qed.

Lemma append_inj_r s1 s2 t : s1 +:+ t = s2 +:+ t -> s1 = s2.
Proof.
  revert s2. induction s1 as [|a s1 IH]; intros [|b s2] H.
  - reflexivity.
  - apply (f_equal String.length) in H. rewrite !length_append in H. simpl in H. lia.
  - apply (f_equal String.length) in H. rewrite !length_append in H. simpl in H. lia.
  - rewrite !append_String in H. injection H as -> H. f_equal. apply IH, H.
Qed.

(** Two texts free of [c], each followed by [c], can be told apart from what
    follows. *)
Lemma append_split c s1 s2 t1 t2 :
  free_of c s1 = true -> free_of c s2 = true ->
  s1 +:+ String c t1 = s2 +:+ String c t2 -> s1 = s2 /\ t1 = t2.
Proof.
  revert s2. induction s1 as [|a s1 IH]; intros [|b s2] H1 H2 H.
  - injection H as ->. done.
  - rewrite append_String in H. change (EmptyString +:+ String c t1) with (String c t1) in H.
    injection H as <- _. simpl in H2. rewrite Ascii.eqb_refl in H2. discriminate.
  - rewrite append_String in H. change (EmptyString +:+ String c t2) with (String c t2) in H.
    injection H as -> _. simpl in H1. rewrite Ascii.eqb_refl in H1. discriminate.
  - rewrite !append_String in H. injection H as -> H. simpl in H1, H2.
    apply andb_prop in H1 as [_ H1]. apply andb_prop in H2 as [_ H2].
    destruct (IH s2 H1 H2 H) as [-> ->]. done.
Qed.

Lemma free_of_append c s t : free_of c (s +:+ t) = free_of c s && free_of c t.
Proof.
  induction s as [|a s IH]; [reflexivity|].
  rewrite append_String. simpl. rewrite IH. apply andb_assoc.
Qed.

Lemma pretty_N_go_free c x s :
  (forall d, (d < 10)%N -> pretty_N_char d <> c) ->
  free_of c s = true -> free_of c (pretty_N_go x s) = true.
Proof.
  intros Hc. revert s. induction (N.lt_wf_0 x) as [x _ IH]; intros s Hs.
  assert (x = 0 \/ 0 < x)%N as [->|Hpos] by lia.
  - rewrite pretty_N_go_0. exact Hs.
  - rewrite pretty_N_go_step by exact Hpos. apply IH.
    + apply N.div_lt; [exact Hpos | lia].
    + simpl. rewrite Hs, andb_true_r. apply negb_true_iff, Ascii.eqb_neq.
      apply Hc. apply N.mod_lt. lia.
Qed.

(** The decimal text of an integer has no slash in it. *)
Lemma pretty_Z_free_slash (n : Z) : free_of "/"%char (pretty n) = true.
Proof.
  assert (forall d, (d < 10)%N -> pretty_N_char d <> "/"%char) as Hc.
  { intros d _. unfold pretty_N_char. repeat case_match; discriminate. }
  assert (forall p : positive, free_of "/"%char (pretty p) = true) as Hpos.
  { intros p. unfold pretty, pretty_positive, pretty, pretty_N.
    case_decide; [reflexivity|]. apply pretty_N_go_free; [exact Hc | reflexivity]. }
  destruct n as [|p|p]; [reflexivity | apply Hpos |].
  change (pretty (Z.neg p)) with ("-" +:+ pretty p).
  rewrite free_of_append, Hpos. reflexivity.
Qed.

(** X12: two [send_message] calls on one client issue the same request
    exactly when their channel ids have the same text and their contents are
    equal: messages for different channels go to different URLs, each with
    its own [content] field. *)
Theorem send_message_request_inj self cid cid' text text' :
  call_request (send_message self cid text) = call_request (send_message self cid' text')
  <-> format cid = format cid' /\ text = text'.
Proof.
  unfold send_message, session_post. cbn -[String.append format]. split.
  - intros [= Hurl ->]. split; [|reflexivity].
    do 2 apply (inj (String.append _)) in Hurl.
    apply append_inj_r in Hurl. exact Hurl.
  - intros [-> ->]. reflexivity.
Qed.

Lemma message_url_inj base (a b a' b' : Z) :
  base +:+ "/channels/" +:+ pretty a +:+ "/messages/" +:+ pretty b
  = base +:+ "/channels/" +:+ pretty a' +:+ "/messages/" +:+ pretty b' ->
  a = a' /\ b = b'.
Proof.
  intros H. do 2 apply (inj (String.append _)) in H.
  change ("/messages/" +:+ pretty b) with (String "/" ("messages/" +:+ pretty b)) in H.
  change ("/messages/" +:+ pretty b') with (String "/" ("messages/" +:+ pretty b')) in H.
  apply append_split in H as [Ha Hb]; try apply pretty_Z_free_slash.
  apply (inj (String.append _)) in Hb.
  split; apply (inj pretty); assumption.
Qed.

(** X13: [edit_message] and [delete_message] address the same URL for the
    same ids, and with integer ids that URL determines both the channel id
    and the message id: distinct messages are never confused. *)
Theorem message_url_determines_ids self a b a' b' text :
  url (call_request (edit_message self (FInt a) (FInt b) text))
  = url (call_request (delete_message self (FInt a) (FInt b))) /\
  (url (call_request (delete_message self (FInt a) (FInt b)))
   = url (call_request (delete_message self (FInt a') (FInt b')))
   <-> a = a' /\ b = b') /\
  (url (call_request (edit_message self (FInt a) (FInt b) text))
   = url (call_request (edit_message self (FInt a') (FInt b') text))
   <-> a = a' /\ b = b').
Proof.
  split; [reflexivity|].
  split; (split; [apply message_url_inj | intros [-> ->]; reflexivity]).
Qed.

(** X14: ids are put into the path as they are, with no escaping: a string
    id that contains [/messages/] gives the very request of another pair of
    ids. *)
Theorem ids_not_escaped self a b m text :
  call_request (delete_message self (FStr (a +:+ "/messages/" +:+ b)) (FStr m))
  = call_request (delete_message self (FStr a) (FStr (b +:+ "/messages/" +:+ m))) /\
  call_request (edit_message self (FStr (a +:+ "/messages/" +:+ b)) (FStr m) text)
  = call_request (edit_message self (FStr a) (FStr (b +:+ "/messages/" +:+ m)) text).
Proof.
  unfold delete_message, edit_message, session_delete, session_put.
  cbn -[String.append]. rewrite !append_assoc. split; reflexivity.
Qed.

(** ** One endpoint, two shapes *)

(** X15: [receive_message] and [fetch_channel_messages] GET the same path
    (the second adds the [limit] query) but expect an object and an array:
    no response makes both of them return. *)
Theorem receive_and_fetch_exclusive client cid limit r :
  url (call_request (fetch_channel_messages client cid (Some limit)))
  = url (call_request (receive_message client cid)) +:+ "?limit=" +:+ format limit /\
  is_Return (resume (receive_message client cid) r)
  && is_Return (resume (fetch_channel_messages client cid (Some limit)) r) = false.
Proof.
  split.
  - unfold fetch_channel_messages, receive_message, session_get.
    cbn -[String.append format]. rewrite !append_assoc. reflexivity.
  - simpl. destruct (status r =? 200); [|reflexivity].
    destruct (json r) as [j|e]; [|reflexivity]. simpl.
    destruct j as [| | | |s|l|d]; try reflexivity.
    rewrite Message_of_well_formed. simpl.
    destruct (map_to_list d) as [|[k v] kvs] eqn:Hkeys.
    + apply map_to_list_empty_iff in Hkeys as ->. reflexivity.
    + simpl. apply andb_false_r.
Qed.

(** ** Other fields *)

(** X16: decoding looks at the mapped fields only.  Two object bodies that
    agree on [id], [name], [type] give the same result in [get_channel_info]
    and [create_channel]; on [id], [username], [discriminator], [avatar] in
    [get_user_info]; on [id], [content], [author] in [receive_message]. *)
Theorem other_fields_ignored client ident name type s (d d' : gmap string pyval) :
  d !! "id" = d' !! "id" ->
  (d !! "name" = d' !! "name" -> d !! "type" = d' !! "type" ->
   resume (get_channel_info client ident) (Response s (Return (VDict d)))
   = resume (get_channel_info client ident) (Response s (Return (VDict d'))) /\
   resume (create_channel client name type) (Response s (Return (VDict d)))
   = resume (create_channel client name type) (Response s (Return (VDict d')))) /\
  (d !! "username" = d' !! "username" ->
   d !! "discriminator" = d' !! "discriminator" -> d !! "avatar" = d' !! "avatar" ->
   resume (get_user_info client ident) (Response s (Return (VDict d)))
   = resume (get_user_info client ident) (Response s (Return (VDict d')))) /\
  (d !! "content" = d' !! "content" -> d !! "author" = d' !! "author" ->
   resume (receive_message client ident) (Response s (Return (VDict d)))
   = resume (receive_message client ident) (Response s (Return (VDict d')))).
Proof.
  intros Hid. split; [|split].
  - intros Hname Htype. split; simpl; unfold Channel_of; simpl;
      rewrite Hid, Hname, Htype; reflexivity.
  - intros Hname Hdisc Havatar. simpl. unfold User_of. simpl.
    rewrite Hid, Hname, Hdisc, Havatar. reflexivity.
  - intros Hcontent Hauthor. simpl. unfold Message_of. simpl.
    rewrite Hid, Hcontent, Hauthor. reflexivity.
Qed.

Lemma other_fields_ignored_witness :
  resume (get_channel_info example_client (FInt 1))
    (Response 200 (Return (VDict (<["topic" := VStr "misc"]> general_channel))))
  = resume (get_channel_info example_client (FInt 1))
      (Response 200 (Return (VDict general_channel))).
Proof.
  refine (proj1 (proj1 (other_fields_ignored example_client (FInt 1) FNone FNone 200
                          (<["topic" := VStr "misc"]> general_channel) general_channel _)
                   _ _));
    reflexivity.
Defined.

(** ** Bodies that are not arrays *)

Lemma comprehension_str_keys {B} (f : pyval -> result B) (ks : list string) :
  (forall s, f (VStr s) = Raise TypeError) ->
  ks <> [] ->
  comprehension f (VStr <$> ks) = Raise TypeError.
Proof.
  intros Hstr Hne. destruct ks as [|k ks]; [done|]. simpl. rewrite Hstr. reflexivity.
Qed.

(** X17: an array operation whose success response decodes to something
    that is not an array raises [TypeError], except for the two values that
    iterate over nothing, the empty object and the empty string, on which it
    returns the empty list. *)
Theorem non_array_body client op r j :
  decodes_array op = true ->
  status r = success_status op ->
  json r = Return j ->
  (forall l, j <> VList l) ->
  outcome client op r
  = match j with
    | VDict d => if decide (d = ∅) then Return (empty_result op) else Raise TypeError
    | VStr EmptyString => Return (empty_result op)
    | _ => Raise TypeError
    end.
Proof.
  intros Hop Hstatus Hjson Hnot. destruct r as [s body]. simpl in *. subst s body.
  assert (forall B (f : pyval -> result B) (wrap : list B -> retval),
             (forall s, f (VStr s) = Raise TypeError) ->
             wrap <$> (xs ← iter j; comprehension f xs)
             = match j with
               | VDict d => if decide (d = ∅) then Return (wrap []) else Raise TypeError
               | VStr EmptyString => Return (wrap [])
               | _ => Raise TypeError
               end) as Hiter.
  { intros B f wrap Hstr. destruct j as [| | | |s|l|d]; try reflexivity.
    - destruct s as [|c s]; [reflexivity|]. simpl. rewrite Hstr. reflexivity.
    - destruct (Hnot l eq_refl).
    - simpl. case_decide as Hempty.
      + subst d. reflexivity.
      + rewrite comprehension_str_keys; [reflexivity | exact Hstr |].
        intros Hnil. apply Hempty, map_to_list_empty_iff.
        destruct (map_to_list d); [reflexivity | discriminate]. }
  destruct op; try discriminate Hop; unfold outcome; simpl;
    apply Hiter; reflexivity.
Qed.

Lemma non_array_body_witness :
  outcome example_client (op_get_user_friends (FInt 7)) (Response 200 (Return ada_user))
  = Raise TypeError.
Proof.
  refine (non_array_body example_client (op_get_user_friends (FInt 7))
            (Response 200 (Return ada_user)) ada_user _ _ _ _);
    try reflexivity.
  intros l. discriminate.
Defined.

(** X18: [connect] is idempotent on a response: awaiting it a second time
    with the same response gives the same result and leaves the client as
    the first call left it. *)
Theorem connect_idempotent self r :
  fst (resume (connect (snd (resume (connect self) r))) r) = fst (resume (connect self) r) /\
  snd (resume (connect (snd (resume (connect self) r))) r) = snd (resume (connect self) r).
Proof.
  simpl. destruct (status r =? 200); [|split; reflexivity].
  destruct (x ← json r; subscript x "url"); split; reflexivity.
Qed.
